(** * go-healthcheck: the checks of health.go and the checker configuration

    A shallow embedding of the two Go files of the repository.

    - [health.go]: the six check constructors ([TCPDialCheck],
      [HTTPGetCheck], [DatabasePingCheck], [DNSResolveCheck],
      [GoroutineCountCheck], [GCMaxPauseCheck]).  A check is a Go closure
      [func(ctx context.Context) error]; it is embedded as a function from
      the passed context to a small program whose only effects are the calls
      it makes to the Go runtime and standard library.
    - the configuration file: [AndictlCheckerConfig], [InitChecker],
      [AddCheck], [AddDatabaseCheck], [GetCheckerHandler].  The option list
      is a Go slice, embedded as a slice header over a store of backing
      arrays, so that what [append] shares and what it copies is explicit.

    Integers are [Z] with the wrap-around of the Go conversions written out;
    a [time.Duration] is its [int64] count of nanoseconds. *)

From Stdlib Require Import ZArith Lia.
From stdpp Require Import base gmap strings list.

Local Open Scope Z_scope.

(** ** Fixed-width integers and [time.Duration] *)

Module time.

(** [uint64(x)] for an [int64] x: the value modulo 2^64. *)
Definition uint64 (x : Z) : Z := x mod 2 ^ 64.

(** [int64(x)] for a [uint64] x (as in [time.Duration(pause)]). *)
Definition int64 (x : Z) : Z := (x + 2 ^ 63) mod 2 ^ 64 - 2 ^ 63.

Definition is_int64 (x : Z) : Prop := - 2 ^ 63 <= x < 2 ^ 63.
Definition is_uint64 (x : Z) : Prop := 0 <= x < 2 ^ 64.

(** A [time.Duration] is an [int64] nanosecond count. *)
Definition Duration : Type := Z.

Definition Nanosecond : Duration := 1.
Definition Microsecond : Duration := 1000 * Nanosecond.
Definition Millisecond : Duration := 1000 * Microsecond.
Definition Second : Duration := 1000 * Millisecond.

(** [k * d] on [Duration] ([int64] arithmetic). *)
Definition mul (k : Z) (d : Duration) : Duration := int64 (k * d).

(** [d.Nanoseconds()] returns [int64(d)]. *)
Definition Nanoseconds (d : Duration) : Z := d.

End time.

(** ** Errors

    [fmt.Errorf(format, args...)] is kept as the format string with its
    arguments; the Go value [nil] of type [error] is [None]. *)

Inductive Arg : Type :=
| AInt (n : Z)                 (* an int printed with %d *)
| ADuration (d : time.Duration) (* a time.Duration printed with %s *).

Record GoError : Type := Errorf { format : string; args : list Arg }.

Definition error : Type := option GoError.

Definition nil : error := None.

#[global] Instance Arg_eq_dec : EqDecision Arg.
Proof. solve_decision. Defined.

#[global] Instance GoError_eq_dec : EqDecision GoError.
Proof. solve_decision. Defined.

(** ** Contexts (package [context])

    A context is the chain of its ancestors.  [cancelCtx] carries whether its
    cancel function has been called; [timerCtx] carries its deadline, in
    nanoseconds on the clock of [time.Now]. *)

Module context.

Inductive Context : Type :=
| Background
| cancelCtx (parent : Context) (cancelled : bool)
| timerCtx (parent : Context) (deadline : Z).

#[global] Instance Context_eq_dec : EqDecision Context.
Proof. solve_decision. Defined.

(** [ctx.Deadline()]: the earliest deadline on the chain. *)
Fixpoint Deadline (ctx : Context) : option Z :=
  match ctx with
  | Background => None
  | cancelCtx parent _ => Deadline parent
  | timerCtx parent d =>
      match Deadline parent with
      | Some d' => Some (Z.min d d')
      | None => Some d
      end
  end.

(** Whether [ctx.Done()] is closed at instant [t]: the context or one of
    its ancestors was cancelled, or a deadline on the chain has passed. *)
Fixpoint Done (ctx : Context) (t : Z) : bool :=
  match ctx with
  | Background => false
  | cancelCtx parent cancelled => cancelled || Done parent t
  | timerCtx parent d => (d <=? t) || Done parent t
  end.

(** [context.WithTimeout(parent, timeout)] called at instant [now], that is
    [WithDeadline(parent, now.Add(timeout))]: when the parent's deadline is
    already earlier, the child is a plain cancel context. *)
Definition WithTimeout (parent : Context) (timeout : time.Duration) (now : Z)
  : Context :=
  let d := now + timeout in
  match Deadline parent with
  | Some cur => if cur <? d then cancelCtx parent false else timerCtx parent d
  | None => timerCtx parent d
  end.

(** [derivedFrom c a]: [a] is [c] or one of the ancestors of [c]; a
    cancellation or expiry of [a] then closes [c.Done()]. *)
Fixpoint derivedFrom (c a : Context) : bool :=
  bool_decide (c = a) ||
  match c with
  | Background => false
  | cancelCtx parent _ => derivedFrom parent a
  | timerCtx parent _ => derivedFrom parent a
  end.

(** [ctx.Err()] at instant [t]. *)
Definition Canceled : GoError := Errorf "context canceled" [].
Definition DeadlineExceeded : GoError := Errorf "context deadline exceeded" [].

Fixpoint Err (ctx : Context) (t : Z) : error :=
  match ctx with
  | Background => nil
  | cancelCtx parent cancelled =>
      if cancelled then Some Canceled else Err parent t
  | timerCtx parent d =>
      match Err parent t with
      | Some e => Some e
      | None => if d <=? t then Some DeadlineExceeded else nil
      end
  end.

End context.

Export context.

(** ** The calls a check makes, and check programs *)

(** A [*sql.DB]: [None] is the nil pointer. *)
Record DB : Type := mkDB { dataSourceName : string }.

#[global] Instance DB_eq_dec : EqDecision DB.
Proof. solve_decision. Defined.

(** A [net.Conn] and an [*http.Response] as far as the checks look at them. *)
Record Conn : Type := mkConn { remoteAddr : string }.
Record Response : Type := mkResponse { StatusCode : Z }.

(** The [http.Client] built by [HTTPGetCheck]. *)
Record Client : Type := mkClient {
  clientTimeout : time.Duration;
  neverFollowRedirects : bool
}.

(** The part of [runtime.MemStats] that is read: [PauseNs], a circular
    buffer [[256]uint64] of recent pause times. *)
Record MemStats : Type := mkMemStats { PauseNs : list Z }.

Inductive Event : Type -> Type :=
| TimeNow : Event Z                                         (* time.Now *)
| Cancel (ctx : Context) : Event unit                       (* a deferred cancel() *)
| DialTimeout (network addr : string) (timeout : time.Duration)
    : Event (Conn * error)                                  (* net.DialTimeout *)
| ConnClose (conn : Conn) : Event error                     (* conn.Close *)
| ClientGet (client : Client) (url : string)
    : Event (Response * error)                              (* client.Get *)
| BodyClose (resp : Response) : Event unit                  (* resp.Body.Close *)
| PingContext (database : option DB) (ctx : Context)
    : Event error                                           (* database.PingContext *)
| LookupHost (ctx : Context) (host : string)
    : Event (list string * error)                           (* resolver.LookupHost *)
| NumGoroutine : Event Z                                    (* runtime.NumGoroutine *)
| ReadMemStats : Event MemStats                             (* runtime.ReadMemStats *)
| LogPrintln (line : string) : Event unit                   (* log.Println *).

Inductive Prog (R : Type) : Type :=
| Ret (r : R)
| Vis {X : Type} (e : Event X) (k : X -> Prog R).

Arguments Ret {R} r.
Arguments Vis {R X} e k.

Fixpoint bind {A B : Type} (p : Prog A) (f : A -> Prog B) : Prog B :=
  match p with
  | Ret a => f a
  | Vis e k => Vis e (fun x => bind (k x) f)
  end.

Definition trigger {X : Type} (e : Event X) : Prog X := Vis e Ret.

#[global] Instance Prog_ret : MRet Prog := fun _ r => Ret r.
#[global] Instance Prog_bind : MBind Prog := fun _ _ f p => bind p f.

(** The context an external call is given, if it takes one. *)
Definition eventCtx {X : Type} (e : Event X) : option Context :=
  match e with
  | PingContext _ ctx => Some ctx
  | LookupHost ctx _ => Some ctx
  | _ => None
  end.

(** A call, with the type of its answer hidden. *)
Inductive Call : Type :=
| call {X : Type} (e : Event X).

Definition callCtx (c : Call) : option Context :=
  match c with call e => eventCtx e end.

Definition isPingContext (c : Call) : bool :=
  match c with call (PingContext _ _) => true | _ => false end.

(** ** Running a check against a runtime *)

Record Runtime : Type := mkRuntime {
  now : Z;
  goroutines : Z;
  memStats : MemStats;
  dial : string -> string -> time.Duration -> Conn * error;
  closeConn : Conn -> error;
  httpGet : Client -> string -> Response * error;
  ping : DB -> Context -> error;
  lookup : Context -> string -> list string * error
}.

Inductive Outcome (R : Type) : Type :=
| Returned (r : R)
| Panicked (msg : string).

Arguments Returned {R} r.
Arguments Panicked {R} msg.

(** The answer of the runtime to one call; a method call through a nil
    [*sql.DB] panics. *)
Definition handle (rt : Runtime) {X : Type} (e : Event X) : X + string :=
  match e in Event T return T + string with
  | TimeNow => inl (now rt)
  | Cancel _ => inl tt
  | DialTimeout network addr timeout => inl (dial rt network addr timeout)
  | ConnClose conn => inl (closeConn rt conn)
  | ClientGet client url => inl (httpGet rt client url)
  | BodyClose _ => inl tt
  | PingContext (Some db) ctx => inl (ping rt db ctx)
  | PingContext None _ =>
      inr "invalid memory address or nil pointer dereference"%string
  | LookupHost ctx host => inl (lookup rt ctx host)
  | NumGoroutine => inl (goroutines rt)
  | ReadMemStats => inl (memStats rt)
  | LogPrintln _ => inl tt
  end.

(** [run rt p]: the outcome of [p] and the calls it made, in order. *)
Fixpoint run {R : Type} (rt : Runtime) (p : Prog R) : Outcome R * list Call :=
  match p with
  | Ret r => (Returned r, [])
  | Vis e k =>
      match handle rt e with
      | inl x => let '(o, tr) := run rt (k x) in (o, call e :: tr)
      | inr msg => (Panicked msg, [call e])
      end
  end.

Definition outcome {R : Type} (rt : Runtime) (p : Prog R) : Outcome R :=
  fst (run rt p).

Definition calls {R : Type} (rt : Runtime) (p : Prog R) : list Call :=
  snd (run rt p).

(** ** health.go *)

(** The type of a check: [func(ctx context.Context) error]. *)
Definition CheckFunc : Type := Context -> Prog error.

(** [TCPDialCheck]: TCP connectivity to [addr]. *)
Definition TCPDialCheck (addr : string) (timeout : time.Duration) : CheckFunc :=
  fun ctx =>
    '(conn, err) ← trigger (DialTimeout "tcp" addr timeout);
    match err with
    | Some e => mret (Some e)
    | None => trigger (ConnClose conn)
    end.

(** [HTTPGetCheck]: an HTTP GET that must answer 200. *)
Definition HTTPGetCheck (url : string) (timeout : time.Duration) : CheckFunc :=
  let client := {| clientTimeout := timeout; neverFollowRedirects := true |} in
  fun ctx =>
    '(resp, err) ← trigger (ClientGet client url);
    match err with
    | Some e => mret (Some e)
    | None =>
        trigger (BodyClose resp);;
        if bool_decide (StatusCode resp ≠ 200)
        then mret (Some (Errorf "returned status %d" [AInt (StatusCode resp)]))
        else mret nil
    end.

(** [DatabasePingCheck]: the body first rebinds [ctx] to a context built
    from [context.Background()], defers its cancel, tests the handle for nil
    and pings. *)
Definition DatabasePingCheck (database : option DB) (timeout : time.Duration)
  : CheckFunc :=
  fun ctx =>
    t ← trigger TimeNow;
    let ctx := WithTimeout Background timeout t in
    r ← (if bool_decide (database = None)
         then mret (Some (Errorf "database is nil" []))
         else trigger (PingContext database ctx));
    trigger (Cancel ctx);;
    mret r.

(** [DNSResolveCheck]: [host] must resolve to at least one address. *)
Definition DNSResolveCheck (host : string) (timeout : time.Duration) : CheckFunc :=
  fun ctx =>
    t ← trigger TimeNow;
    let ctx := WithTimeout Background timeout t in
    r ← ('(addrs, err) ← trigger (LookupHost ctx host);
         match err with
         | Some e => mret (Some e)
         | None =>
             if bool_decide (length addrs < 1)%nat
             then mret (Some (Errorf "could not resolve host" []))
             else mret nil
         end);
    trigger (Cancel ctx);;
    mret r.

(** [GoroutineCountCheck]: fails when more than [threshold] goroutines run. *)
Definition GoroutineCountCheck (threshold : Z) : CheckFunc :=
  fun ctx =>
    count ← trigger NumGoroutine;
    if count >? threshold
    then mret (Some (Errorf "too many goroutines (%d > %d)"
                            [AInt count; AInt threshold]))
    else mret nil.

(** The loop of [GCMaxPauseCheck] over [stats.PauseNs]. *)
Fixpoint pauseLoop (thresholdNanoseconds : Z) (threshold : time.Duration)
    (pauses : list Z) : error :=
  match pauses with
  | [] => nil
  | pause :: rest =>
      if pause >? thresholdNanoseconds
      then Some (Errorf "recent GC cycle took %s > %s"
                        [ADuration (time.int64 pause); ADuration threshold])
      else pauseLoop thresholdNanoseconds threshold rest
  end.

(** [GCMaxPauseCheck]: fails when a recent GC pause exceeds [threshold]. *)
Definition GCMaxPauseCheck (threshold : time.Duration) : CheckFunc :=
  let thresholdNanoseconds := time.uint64 (time.Nanoseconds threshold) in
  fun ctx =>
    stats ← trigger ReadMemStats;
    mret (pauseLoop thresholdNanoseconds threshold (PauseNs stats)).

(** ** Go slices

    A slice value is a header (backing array, length, capacity); the backing
    arrays live in a store shared by every header that points to them.  An
    array cell holds [None] for the zero value of the element type (for a
    function type, the nil function). *)

Module slice.

Record Slice : Type := mkSlice { array : nat; len : nat; cap : nat }.

Section Ops.
Context {T : Type}.

  (** The elements [s[0]], ..., [s[len(s)-1]] as the store has them. *)
Definition readSlice (st : gmap nat (list (option T))) (s : Slice)
    : list (option T) :=
    take (len s) (default [] (st !! array s)).

  (** [make([]T, n, c)]: a fresh zeroed array of [c] cells. *)
Definition make (st : gmap nat (list (option T))) (n c : nat)
    : gmap nat (list (option T)) * Slice :=
    let l := fresh (dom st) in
    (<[l := replicate c None]> st, {| array := l; len := n; cap := c |}).

  (** The capacity [append] grows a full slice to.  The Go runtime doubles
      short slices (and then rounds up to an allocation size class, which
      is left out: only [cap s < growcap (cap s)] matters here). *)
Definition growcap (oldcap : nat) : nat :=
    if bool_decide (oldcap = 0)%nat then 1%nat else (2 * oldcap)%nat.

  (** [append(s, x)]: with room left, [x] is written into the shared
      backing array just past the length; otherwise the elements are copied
      into a fresh, larger array.  The header is returned, never updated in
      place. *)
Definition append (st : gmap nat (list (option T))) (s : Slice) (x : option T)
    : gmap nat (list (option T)) * Slice :=
    let a := default [] (st !! array s) in
    if bool_decide (len s < cap s)%nat then
      (<[array s := <[len s := x]> a]> st,
       {| array := array s; len := S (len s); cap := cap s |})
    else
      let c := growcap (cap s) in
      let l := fresh (dom st) in
      (<[l := take (len s) a ++ x :: replicate (c - len s - 1) None]> st,
       {| array := l; len := S (len s); cap := c |}).

  (** A header that points into the store: its array is allocated with
      [cap s] cells and the length is within the capacity. *)
Definition valid (st : gmap nat (list (option T))) (s : Slice) : Prop :=
    exists a, st !! array s = Some a /\ length a = cap s /\ (len s <= cap s)%nat.

End Ops.

End slice.

Export slice.

(** ** The options of the health library

    The library github.com/alexliesenfeld/health is imported, not part of the
    repository, and nothing here says what it computes.  What the
    repository's code shows of it (the constructors it calls and the struct
    fields it sets) is kept as data: an option is the constructor that built
    it together with its argument; a checker and a handler are what they
    were built from. *)

Module health.

(** [health.CheckerState], of which the listener reads [Status]. *)
Record CheckerState : Type := mkCheckerState { Status : string }.

(** [health.Check]: the struct literal fields set by the repository. *)
Record Check : Type := mkCheck { Name : string; Timeout : time.Duration; check : CheckFunc }.

Definition Listener : Type := Context -> CheckerState -> Prog unit.

Inductive CheckerOption : Type :=
| WithCacheDuration (duration : time.Duration)
| WithTimeout (timeout : time.Duration)
| WithCheck (c : Check)
| WithStatusListener (listener : Listener).

(** [health.NewChecker(options...)]: the variadic parameter receives the
    slice header passed with [...], not a copy of its elements. *)
Record Checker : Type := NewChecker { options : Slice }.

(** [health.NewHandler(checker)]. *)
Record HandlerFunc : Type := NewHandler { checker : Checker }.

End health.

(** What a list of options configures, option by option. *)
Definition cacheDurations (opts : list (option health.CheckerOption))
  : list time.Duration :=
  omap (fun o => match o with Some (health.WithCacheDuration d) => Some d | _ => None end) opts.

Definition globalTimeouts (opts : list (option health.CheckerOption))
  : list time.Duration :=
  omap (fun o => match o with Some (health.WithTimeout d) => Some d | _ => None end) opts.

Definition checksOf (opts : list (option health.CheckerOption))
  : list health.Check :=
  omap (fun o => match o with Some (health.WithCheck c) => Some c | _ => None end) opts.

Definition listenersOf (opts : list (option health.CheckerOption))
  : list health.Listener :=
  omap (fun o => match o with Some (health.WithStatusListener l) => Some l | _ => None end) opts.

Definition checkNames (opts : list (option health.CheckerOption)) : list string :=
  health.Name <$> checksOf opts.

Definition checkTimeouts (opts : list (option health.CheckerOption))
  : list (string * time.Duration) :=
  (fun c => (health.Name c, health.Timeout c)) <$> checksOf opts.

(** ** The configuration file *)

(** What setting up a configuration acts on: the backing arrays of the
    option slices, and the lines written by [fmt.Println]. *)
Record World : Type := mkWorld {
  store : gmap nat (list (option health.CheckerOption));
  stdout : list string
}.

Definition emptyWorld : World := {| store := ∅; stdout := [] |}.

Definition Setup (A : Type) : Type := World -> A * World.

#[global] Instance Setup_ret : MRet Setup := fun _ a w => (a, w).
#[global] Instance Setup_bind : MBind Setup :=
  fun _ _ f m w => let '(a, w') := m w in f a w'.

Definition Println (line : string) : Setup unit :=
  fun w => (tt, {| store := store w; stdout := stdout w ++ [line] |}).

Record AndictlCheckerConfig : Type := mkConfig { checkers : Slice }.

(** [func (c *AndictlCheckerConfig) AddCheck(check)]: the struct behind the
    pointer receiver is returned with its new slice header. *)
Definition AddCheck (check : health.CheckerOption) (c : AndictlCheckerConfig)
  : Setup AndictlCheckerConfig :=
  fun w =>
    let '(st, s) := append (store w) (checkers c) (Some check) in
    ({| checkers := s |}, {| store := st; stdout := stdout w |}).

(** The listener installed by [InitChecker]. *)
Definition statusListener : health.Listener :=
  fun ctx state =>
    trigger (LogPrintln ("health status changed to " +:+ health.Status state)).

Definition InitChecker : Setup AndictlCheckerConfig :=
  fun w =>
    let '(st, s) := make (store w) 0 10 in
    let config := {| checkers := s |} in
    (config ← AddCheck (health.WithCacheDuration (time.mul 1 time.Second)) config;
     config ← AddCheck (health.WithTimeout (time.mul 10 time.Second)) config;
     config ← AddCheck (health.WithCheck
                 {| health.Name := "goroutine-threshold";
                    health.Timeout := time.mul 2 time.Second;
                    health.check := GoroutineCountCheck 100 |}) config;
     config ← AddCheck (health.WithStatusListener statusListener) config;
     mret config) {| store := st; stdout := stdout w |}.

Definition AddDatabaseCheck (db : option DB) (c : AndictlCheckerConfig)
  : Setup AndictlCheckerConfig :=
  let check := health.WithCheck
                 {| health.Name := "database";
                    health.Timeout := time.mul 2 time.Second;
                    health.check := DatabasePingCheck db (time.mul 1 time.Second) |} in
  Println "Check database health";;
  AddCheck check c.

(** [func (c AndictlCheckerConfig) GetCheckerHandler()]: a value receiver,
    so the handler is built from a copy of the struct, that is of the slice
    header. *)
Definition GetCheckerHandler (c : AndictlCheckerConfig) : health.HandlerFunc :=
  health.NewHandler (health.NewChecker (checkers c)).

(** The options a handler reads through the slice it was given. *)
Definition handlerOptions (w : World) (h : health.HandlerFunc)
  : list (option health.CheckerOption) :=
  readSlice (store w) (health.options (health.checker h)).

(** Registrations made after a handler was obtained. *)
Inductive Registration : Type :=
| RegCheck (check : health.CheckerOption)   (* c.AddCheck(check) *)
| RegDatabase (db : option DB)              (* c.AddDatabaseCheck(db) *).

Definition register (r : Registration) (c : AndictlCheckerConfig)
  : Setup AndictlCheckerConfig :=
  match r with
  | RegCheck check => AddCheck check c
  | RegDatabase db => AddDatabaseCheck db c
  end.

Fixpoint registerAll (rs : list Registration) (c : AndictlCheckerConfig)
  : Setup AndictlCheckerConfig :=
  match rs with
  | [] => mret c
  | r :: rs' => c' ← register r c; registerAll rs' c'
  end.

(** The options of a configuration, read in a world. *)
Definition configured (w : World) (c : AndictlCheckerConfig)
  : list (option health.CheckerOption) :=
  readSlice (store w) (checkers c).

(** ** Runtimes used in the examples *)

(** A runtime in which every dependency honours its context promptly: a
    ping or a lookup under a context that is already done returns the
    context's error, and succeeds otherwise. *)
Definition promptRuntime (t : Z) (n : Z) (pauses : list Z) : Runtime :=
  {| now := t;
     goroutines := n;
     memStats := {| PauseNs := pauses |};
     dial := fun _ addr _ => ({| remoteAddr := addr |}, nil);
     closeConn := fun _ => nil;
     httpGet := fun _ _ => ({| StatusCode := 200 |}, nil);
     ping := fun _ ctx => Err ctx t;
     lookup := fun ctx _ =>
       match Err ctx t with
       | Some e => ([], Some e)
       | None => (["127.0.0.1"%string], nil)
       end |}.

(** A context whose cancel function has already been called. *)
Definition cancelledCtx : Context := cancelCtx Background true.

Definition exampleDB : DB := {| dataSourceName := "postgres://localhost/app" |}.

(** The default configuration, set up from nothing. *)
Definition defaultConfig : AndictlCheckerConfig := (InitChecker emptyWorld).1.
Definition defaultWorld : World := (InitChecker emptyWorld).2.

(** What [DatabasePingCheck] and [DNSResolveCheck] hand to the driver: the
    context built at instant [t] from [context.Background()]. *)
Definition workCtx (t : Z) (timeout : time.Duration) : Context :=
  WithTimeout Background timeout t.

(** [covers w c s0]: the header [s0], taken from the configuration at some
    earlier point, is still readable in [w] and is either over another array
    than the configuration's current slice or no longer than it. *)
Definition covers (w : World) (c : AndictlCheckerConfig) (s0 : Slice) : Prop :=
  valid (store w) (checkers c) /\ valid (store w) s0 /\
  (array s0 ≠ array (checkers c) \/ (len s0 <= len (checkers c))%nat).

(** The option [AddDatabaseCheck db] hands to [AddCheck]. *)
Definition databaseOption (db : option DB) : health.CheckerOption :=
  health.WithCheck
    {| health.Name := "database";
       health.Timeout := time.mul 2 time.Second;
       health.check := DatabasePingCheck db (time.mul 1 time.Second) |}.

(** The option a registration appends. *)
Definition optionOf (r : Registration) : health.CheckerOption :=
  match r with
  | RegCheck check => check
  | RegDatabase db => databaseOption db
  end.

(** How many of the registrations are [AddDatabaseCheck] calls. *)
Fixpoint databaseRegistrations (rs : list Registration) : nat :=
  match rs with
  | [] => 0%nat
  | RegDatabase _ :: rs' => S (databaseRegistrations rs')
  | RegCheck _ :: rs' => databaseRegistrations rs'
  end.

Definition isCancel (k : Call) : bool :=
  match k with call (Cancel _) => true | _ => false end.

Definition isBodyClose (k : Call) : bool :=
  match k with call (BodyClose _) => true | _ => false end.

Definition isConnClose (k : Call) : bool :=
  match k with call (ConnClose _) => true | _ => false end.

(** The zero value [AndictlCheckerConfig{}]: its [checkers] is the nil
    slice, of length and capacity 0, over no array (the location is never
    read or written at that length). *)
Definition nilSlice : Slice := {| array := 0; len := 0; cap := 0 |}.
Definition zeroConfig : AndictlCheckerConfig := {| checkers := nilSlice |}.

(** * Properties *)

(** ** Slices: what [append] changes and what it leaves alone *)

Section SliceFacts.
Context {T : Type}.
Implicit Types (st : gmap nat (list (option T))) (s : Slice) (x : option T).

Lemma make_valid st n c :
  (n <= c)%nat -> valid (make st n c).1 (make st n c).2.
Proof.
  intros Hn. exists (replicate c None). cbn.
  rewrite lookup_insert_eq, length_replicate. auto.
Qed.

Lemma make_read_empty st c : readSlice (make st 0 c).1 (make st 0 c).2 = [].
Proof. reflexivity. Qed.

Lemma fresh_not_allocated st a l :
  st !! l = Some a -> fresh (dom st) ≠ l.
Proof.
  intros Hl Heq. apply (is_fresh (dom st)).
  rewrite Heq. apply elem_of_dom. eauto.
Qed.

Lemma growcap_gt (c : nat) : (c < growcap c)%nat.
Proof. unfold growcap. case_bool_decide; lia. Qed.

Lemma append_valid st s x :
  valid st s -> valid (append st s x).1 (append st s x).2.
Proof.
  intros (a & Ha & Hlen & Hle). unfold append. rewrite Ha. cbn.
  case_bool_decide as Hroom; cbn.
  - exists (<[len s := x]> a). rewrite lookup_insert_eq, length_insert.
    repeat split; auto with lia.
  - eexists. rewrite lookup_insert_eq. split; [reflexivity|].
    pose proof (growcap_gt (cap s)).
    rewrite length_app, length_take. cbn. rewrite length_replicate.
    split; lia.
Qed.

Lemma append_read st s x :
  valid st s ->
  readSlice (append st s x).1 (append st s x).2 = readSlice st s ++ [x].
Proof.
  intros (a & Ha & Hlen & Hle). unfold append, readSlice. rewrite Ha. cbn.
  case_bool_decide as Hroom; cbn; rewrite lookup_insert_eq; cbn.
  - apply list_eq. intros i.
    destruct (decide (i < len s)%nat) as [Hi|Hi].
    + rewrite lookup_take_lt by lia.
      rewrite list_lookup_insert_ne by lia.
      rewrite lookup_app_l by (rewrite length_take; lia).
      by rewrite lookup_take_lt by lia.
    + destruct (decide (i = len s)) as [->|Hne].
      * rewrite lookup_take_lt by lia.
        rewrite list_lookup_insert_eq by lia.
        rewrite lookup_app_r by (rewrite length_take; lia).
        rewrite length_take. replace (len s - len s `min` length a)%nat with 0%nat by lia.
        reflexivity.
      * rewrite lookup_take_ge by lia.
        symmetry. apply lookup_ge_None.
        rewrite length_app, length_take. cbn. lia.
  - assert (len s = length a) as Hfull by lia.
    rewrite (take_ge a (len s)) by lia.
    rewrite (cons_middle x a), app_assoc.
    apply take_app_length'. rewrite length_app. cbn. lia.
Qed.

(** Frame: a header [s0] over another array, or over the same array and
    no longer than [s], reads the same elements after [append st s x], and
    stands in the same relation to the header [append] returns. *)
Lemma append_frame st s x s0 :
  valid st s -> valid st s0 ->
  array s0 ≠ array s \/ (len s0 <= len s)%nat ->
  readSlice (append st s x).1 s0 = readSlice st s0
  /\ valid (append st s x).1 s0
  /\ (array s0 ≠ array (append st s x).2
      \/ (len s0 <= len (append st s x).2)%nat).
Proof.
  intros (a & Ha & Hlen & Hle) (a0 & Ha0 & Hlen0 & Hle0) Hsep.
  unfold append, readSlice, valid. rewrite Ha. cbn.
  case_bool_decide as Hroom; cbn.
  - destruct (decide (array s0 = array s)) as [Heq|Hne].
    + destruct Hsep as [?|Hshort]; [done|].
      rewrite Heq, lookup_insert_eq. rewrite Heq, Ha in Ha0.
      injection Ha0 as <-. cbn. split_and!.
      * rewrite Ha. cbn. rewrite take_insert.
        destruct (decide (len s < len s0)%nat); [lia|done].
      * eexists. split; [reflexivity|]. rewrite length_insert. auto.
      * right. lia.
    + rewrite lookup_insert_ne by done. rewrite Ha0. split_and!; [done| |by left].
      exists a0. auto.
  - assert (fresh (dom st) ≠ array s0) as Hfresh
      by (eapply fresh_not_allocated; eauto).
    rewrite lookup_insert_ne by done. rewrite Ha0. split_and!; [done| |by left].
    exists a0. auto.
Qed.

End SliceFacts.

(** ** Registration: [AddCheck], [AddDatabaseCheck], [InitChecker] *)

Lemma AddCheck_spec check c w :
  valid (store w) (checkers c) ->
  configured (AddCheck check c w).2 (AddCheck check c w).1
    = configured w c ++ [Some check]
  /\ valid (store (AddCheck check c w).2) (checkers (AddCheck check c w).1)
  /\ stdout (AddCheck check c w).2 = stdout w.
Proof.
  intros Hv. unfold AddCheck, configured.
  pose proof (append_read (store w) (checkers c) (Some check) Hv) as Hr.
  pose proof (append_valid (store w) (checkers c) (Some check) Hv) as Hv'.
  destruct (append (store w) (checkers c) (Some check)) as [st s].
  cbn in *. auto.
Qed.

Lemma AddCheck_covers check c w s0 :
  covers w c s0 ->
  readSlice (store (AddCheck check c w).2) s0 = readSlice (store w) s0
  /\ covers (AddCheck check c w).2 (AddCheck check c w).1 s0.
Proof.
  intros (Hv & Hv0 & Hsep). unfold AddCheck, covers.
  pose proof (append_frame (store w) (checkers c) (Some check) s0 Hv Hv0 Hsep)
    as (Hr & Hv0' & Hsep').
  pose proof (append_valid (store w) (checkers c) (Some check) Hv) as Hv'.
  destruct (append (store w) (checkers c) (Some check)) as [st s].
  cbn in *. auto.
Qed.

Lemma AddDatabaseCheck_unfold db c w :
  AddDatabaseCheck db c w =
  AddCheck (health.WithCheck
              {| health.Name := "database";
                 health.Timeout := time.mul 2 time.Second;
                 health.check := DatabasePingCheck db (time.mul 1 time.Second) |})
           c {| store := store w; stdout := stdout w ++ ["Check database health"] |}.
Proof. reflexivity. Qed.

Lemma register_covers r c w s0 :
  covers w c s0 ->
  readSlice (store (register r c w).2) s0 = readSlice (store w) s0
  /\ covers (register r c w).2 (register r c w).1 s0.
Proof.
  intros Hc. destruct r as [check|db]; cbn [register].
  - by apply AddCheck_covers.
  - rewrite AddDatabaseCheck_unfold.
    by apply (AddCheck_covers _ c (mkWorld (store w) _) s0).
Qed.

Lemma registerAll_covers rs : forall c w s0,
  covers w c s0 ->
  readSlice (store (registerAll rs c w).2) s0 = readSlice (store w) s0.
Proof.
  induction rs as [|r rs IH]; intros c w s0 Hc; [done|].
  destruct (register_covers r c w s0 Hc) as [Hr Hc'].
  change (registerAll (r :: rs) c w)
    with (let '(c', w') := register r c w in registerAll rs c' w').
  destruct (register r c w) as [c' w'] eqn:E. cbn in Hr, Hc'.
  rewrite (IH c' w' s0 Hc'). done.
Qed.

Lemma InitChecker_valid w0 :
  valid (store (InitChecker w0).2) (checkers (InitChecker w0).1)
  /\ configured (InitChecker w0).2 (InitChecker w0).1 =
     [Some (health.WithCacheDuration (time.mul 1 time.Second));
      Some (health.WithTimeout (time.mul 10 time.Second));
      Some (health.WithCheck
              {| health.Name := "goroutine-threshold";
                 health.Timeout := time.mul 2 time.Second;
                 health.check := GoroutineCountCheck 100 |});
      Some (health.WithStatusListener statusListener)].
Proof.
  unfold InitChecker.
  pose proof (make_valid (store w0) 0 10 ltac:(lia)) as Hv0.
  pose proof (make_read_empty (store w0) 10) as Hr0.
  destruct (make (store w0) 0 10) as [st s]. cbn [fst snd] in Hv0, Hr0.
  set (w1 := {| store := st; stdout := stdout w0 |}).
  set (c0 := {| checkers := s |}).
  assert (valid (store w1) (checkers c0)) as Hv by exact Hv0.
  assert (configured w1 c0 = []) as Hr by exact Hr0.
  clearbody w1 c0. clear Hv0 Hr0.
  unfold mbind, Setup_bind, mret, Setup_ret.
  repeat match goal with
  | |- context [AddCheck ?o ?c ?w] =>
      let H1 := fresh in let H2 := fresh in
      destruct (AddCheck_spec o c w) as (H1 & H2 & _); [assumption|];
      destruct (AddCheck o c w); cbn [fst snd] in H1, H2;
      rewrite Hr in H1; clear Hr Hv; rename H1 into Hr; rename H2 into Hv
  end.
  cbn [fst snd]. split; [assumption|]. rewrite Hr. reflexivity.
Qed.

(** ** The checks of health.go *)

Lemma pauseLoop_nil_iff thr threshold pauses :
  pauseLoop thr threshold pauses = nil <-> Forall (fun p => p <= thr) pauses.
Proof.
  induction pauses as [|p rest IH]; cbn.
  - split; [constructor|reflexivity].
  - destruct (Z.gtb_spec p thr) as [Hgt|Hle].
    + split; [discriminate|]. intros HF. inversion HF; subst. lia.
    + rewrite IH. split.
      * intros HF. by constructor.
      * intros HF. by inversion HF.
Qed.

Lemma uint64_of_negative (x : Z) :
  time.is_int64 x -> x < 0 -> time.uint64 x = x + 2 ^ 64.
Proof.
  unfold time.is_int64, time.uint64. intros Hr Hneg.
  symmetry. apply Z.mod_unique with (q := -1); lia.
Qed.

Lemma GCMaxPauseCheck_outcome rt threshold ctx :
  outcome rt (GCMaxPauseCheck threshold ctx) =
  Returned (pauseLoop (time.uint64 threshold) threshold (PauseNs (memStats rt))).
Proof. reflexivity. Qed.

Lemma DatabasePingCheck_nil_run rt timeout ctx :
  run rt (DatabasePingCheck None timeout ctx) =
  (Returned (Some (Errorf "database is nil" [])),
   [call TimeNow; call (Cancel (workCtx (now rt) timeout))]).
Proof. reflexivity. Qed.

Lemma derivedFrom_workCtx t timeout ctx :
  derivedFrom (workCtx t timeout) ctx = true <->
  ctx = workCtx t timeout \/ ctx = Background.
Proof.
  unfold workCtx, WithTimeout. cbn.
  rewrite orb_true_iff, orb_false_r, !bool_decide_eq_true. split.
  - intros [<-| <-]; auto.
  - intros [->| ->]; auto.
Qed.

(** None of the six checks reads the context it is passed. *)
Lemma checks_ignore_passed_context (ctx ctx' : Context) :
  (forall addr timeout, TCPDialCheck addr timeout ctx' = TCPDialCheck addr timeout ctx)
  /\ (forall url timeout, HTTPGetCheck url timeout ctx' = HTTPGetCheck url timeout ctx)
  /\ (forall db timeout, DatabasePingCheck db timeout ctx' = DatabasePingCheck db timeout ctx)
  /\ (forall host timeout, DNSResolveCheck host timeout ctx' = DNSResolveCheck host timeout ctx)
  /\ (forall t, GoroutineCountCheck t ctx' = GoroutineCountCheck t ctx)
  /\ (forall threshold, GCMaxPauseCheck threshold ctx' = GCMaxPauseCheck threshold ctx).
Proof. split_and!; reflexivity. Qed.

(** What the nil test of [DatabasePingCheck] guards against: a
    [PingContext] call through a nil handle panics. *)
Lemma PingContext_nil_panics rt ctx :
  outcome rt (trigger (PingContext None ctx))
  = Panicked "invalid memory address or nil pointer dereference".
Proof. reflexivity. Qed.

(** C8. For every threshold [t] and every goroutine count the runtime
    reports, the check built by [GoroutineCountCheck t] returns nil exactly
    when the count is at most [t] (a count equal to the threshold passes),
    and returns the "too many goroutines" error when it is greater. *)
Theorem GoroutineCountCheck_succeeds_iff (rt : Runtime) (t : Z) (ctx : Context) :
  (outcome rt (GoroutineCountCheck t ctx) = Returned nil <-> goroutines rt <= t)
  /\ (outcome rt (GoroutineCountCheck t ctx) =
        Returned (Some (Errorf "too many goroutines (%d > %d)"
                               [AInt (goroutines rt); AInt t]))
      <-> t < goroutines rt)
  /\ outcome (promptRuntime 0 t []) (GoroutineCountCheck t ctx) = Returned nil.
Proof.
  unfold outcome. cbn.
  split_and!.
  - destruct (Z.gtb_spec (goroutines rt) t); cbn; split; (lia || discriminate || auto).
  - destruct (Z.gtb_spec (goroutines rt) t); cbn; split; (lia || discriminate || auto).
  - rewrite Z.gtb_ltb, Z.ltb_irrefl. reflexivity.
Qed.

(** C9. [GCMaxPauseCheck] converts its threshold with
    [uint64(threshold.Nanoseconds())], the value modulo 2^64: for every
    negative threshold the converted value is [threshold + 2^64], which is at
    least 2^63, and the check returns nil whatever pause times were
    observed, that is, for every buffer whose entries are below 2^63
    nanoseconds (the pauses a [time.Duration] can measure).  The check
    returns nil exactly when no entry is above the converted threshold. *)
Theorem GCMaxPauseCheck_negative_threshold
    (rt : Runtime) (threshold : time.Duration) (ctx : Context) :
  time.is_int64 threshold -> threshold < 0 ->
  time.uint64 (time.Nanoseconds threshold) = threshold + 2 ^ 64
  /\ 2 ^ 63 <= time.uint64 (time.Nanoseconds threshold)
  /\ (outcome rt (GCMaxPauseCheck threshold ctx) = Returned nil
      <-> Forall (fun p => p <= threshold + 2 ^ 64) (PauseNs (memStats rt)))
  /\ (Forall (fun p => p < 2 ^ 63) (PauseNs (memStats rt)) ->
      outcome rt (GCMaxPauseCheck threshold ctx) = Returned nil).
Proof.
  intros Hr Hneg. unfold time.Nanoseconds.
  pose proof (uint64_of_negative threshold Hr Hneg) as Hw.
  assert (outcome rt (GCMaxPauseCheck threshold ctx) = Returned nil
          <-> Forall (fun p => p <= threshold + 2 ^ 64) (PauseNs (memStats rt)))
    as Hiff.
  { rewrite GCMaxPauseCheck_outcome, Hw, <- pauseLoop_nil_iff.
    split; [by intros [= ->]|by intros ->]. }
  split_and!; [done| |done|].
  - rewrite Hw. unfold time.is_int64 in Hr. lia.
  - intros HF. apply Hiff. eapply Forall_impl; [exact HF|].
    intros p Hp. cbn beta in *. unfold time.is_int64 in Hr. lia.
Qed.

(** A threshold of -1s and a buffer of 256 pauses of a quarter of a
    millisecond. *)
Lemma GCMaxPauseCheck_negative_threshold_witness :
  time.is_int64 (-1000000000) /\ -1000000000 < 0 /\
  Forall (fun p => p < 2 ^ 63) (replicate 256 250000) /\
  outcome (promptRuntime 0 1 (replicate 256 250000))
          (GCMaxPauseCheck (-1000000000) Background) = Returned nil.
Proof.
  assert (time.is_int64 (-1000000000)) as Hr by (unfold time.is_int64; lia).
  assert (-1000000000 < 0) as Hneg by lia.
  assert (Forall (fun p => p < 2 ^ 63) (replicate 256 250000)) as Hobs
    by (apply Forall_replicate; lia).
  split_and!; [exact Hr|exact Hneg|exact Hobs|].
  destruct (GCMaxPauseCheck_negative_threshold
              (promptRuntime 0 1 (replicate 256 250000)) (-1000000000) Background
              Hr Hneg) as (_ & _ & _ & Hall).
  apply Hall. exact Hobs.
Defined.

(** C10. For every timeout (and every passed context and runtime) the check
    built by [DatabasePingCheck nil timeout] returns the error
    "database is nil" and makes no [PingContext] call, so it does not panic;
    and the probe that [AddDatabaseCheck nil] appends to a configuration is
    named "database" and behaves so. *)
Theorem AddDatabaseCheck_nil_fails_without_ping
    (c : AndictlCheckerConfig) (w : World) (rt : Runtime)
    (timeout : time.Duration) (ctx : Context) :
  valid (store w) (checkers c) ->
  outcome rt (DatabasePingCheck None timeout ctx)
    = Returned (Some (Errorf "database is nil" []))
  /\ forallb (fun k => negb (isPingContext k))
             (calls rt (DatabasePingCheck None timeout ctx)) = true
  /\ exists chk : health.Check,
       last (configured (AddDatabaseCheck None c w).2 (AddDatabaseCheck None c w).1)
         = Some (Some (health.WithCheck chk))
       /\ health.Name chk = "database"%string
       /\ outcome rt (health.check chk ctx)
          = Returned (Some (Errorf "database is nil" []))
       /\ forallb (fun k => negb (isPingContext k))
                  (calls rt (health.check chk ctx)) = true.
Proof.
  intros Hv. unfold outcome, calls.
  rewrite DatabasePingCheck_nil_run. cbn [fst snd].
  split_and!; [reflexivity|reflexivity|].
  rewrite AddDatabaseCheck_unfold.
  match goal with
  | |- context [AddCheck ?o c ?w'] =>
      destruct (AddCheck_spec o c w' Hv) as (Hr & _ & _); rewrite Hr
  end.
  eexists. rewrite last_snoc. split_and!; reflexivity.
Qed.

(** The default configuration, a nil handle and a cancelled passed context. *)
Lemma AddDatabaseCheck_nil_fails_without_ping_witness :
  valid (store defaultWorld) (checkers defaultConfig)
  /\ outcome (promptRuntime 0 1 []) (DatabasePingCheck None time.Second cancelledCtx)
     = Returned (Some (Errorf "database is nil" [])).
Proof.
  assert (valid (store defaultWorld) (checkers defaultConfig)) as Hv.
  { eexists. split_and!; [vm_compute; reflexivity|reflexivity|vm_compute; lia]. }
  split; [exact Hv|].
  apply (AddDatabaseCheck_nil_fails_without_ping
           defaultConfig defaultWorld (promptRuntime 0 1 []) time.Second
           cancelledCtx Hv).
Defined.

(** C3 (as amended). The context under which [DatabasePingCheck] pings and
    [DNSResolveCheck] resolves is [context.WithTimeout(context.Background(),
    timeout)]: whatever context is passed to the check, the driver call gets
    the timer context on the background context with deadline
    [now + timeout], which is done exactly from that deadline on; the only
    contexts it is derived from are itself and the background context, and
    the check built does not depend on the passed context at all. *)
Theorem probe_context_is_from_Background
    (rt : Runtime) (db : DB) (host : string) (timeout : time.Duration)
    (ctx : Context) :
  let wctx := timerCtx Background (now rt + timeout) in
  calls rt (DatabasePingCheck (Some db) timeout ctx)
    = [call TimeNow; call (PingContext (Some db) wctx); call (Cancel wctx)]
  /\ calls rt (DNSResolveCheck host timeout ctx)
    = [call TimeNow; call (LookupHost wctx host); call (Cancel wctx)]
  /\ outcome rt (DatabasePingCheck (Some db) timeout ctx)
    = Returned (ping rt db wctx)
  /\ (forall t, Done wctx t = (now rt + timeout <=? t))
  /\ (forall a, derivedFrom wctx a = true <-> a = wctx \/ a = Background)
  /\ (forall ctx' database,
        DatabasePingCheck database timeout ctx'
          = DatabasePingCheck database timeout ctx
        /\ DNSResolveCheck host timeout ctx' = DNSResolveCheck host timeout ctx).
Proof.
  cbn zeta. split_and!.
  - reflexivity.
  - unfold calls. cbn.
    destruct (lookup rt (timerCtx Background (now rt + timeout)) host)
      as [addrs [e|]]; cbn; [reflexivity|].
    case_bool_decide; reflexivity.
  - reflexivity.
  - intros t. cbn. apply orb_false_r.
  - intros a. apply (derivedFrom_workCtx (now rt) timeout a).
  - intros ctx' database. split; reflexivity.
Qed.

(** C3, as stated, fails: the context handed to [PingContext] and to
    [LookupHost] is not derived from the passed context.  With a passed
    context that is already cancelled and dependencies that return the
    context's error as soon as their context is done, both checks still
    succeed, whereas under a context derived from the passed one the ping
    returns "context canceled". *)
Lemma probe_context_not_derived_from_passed :
  ~ (forall (rt : Runtime) (database : option DB) (timeout : time.Duration)
            (ctx : Context) (k : Call) (wctx : Context),
        k ∈ calls rt (DatabasePingCheck database timeout ctx) ->
        callCtx k = Some wctx -> derivedFrom wctx ctx = true)
  /\ ~ (forall (rt : Runtime) (host : string) (timeout : time.Duration)
               (ctx : Context) (k : Call) (wctx : Context),
        k ∈ calls rt (DNSResolveCheck host timeout ctx) ->
        callCtx k = Some wctx -> derivedFrom wctx ctx = true)
  /\ Done cancelledCtx 0 = true
  /\ outcome (promptRuntime 0 1 [])
             (DatabasePingCheck (Some exampleDB) time.Second cancelledCtx)
     = Returned nil
  /\ outcome (promptRuntime 0 1 [])
             (DNSResolveCheck "example.org" time.Second cancelledCtx)
     = Returned nil
  /\ ping (promptRuntime 0 1 []) exampleDB (WithTimeout cancelledCtx time.Second 0)
     = Some Canceled.
Proof.
  split_and!; try reflexivity.
  - intros H.
    specialize (H (promptRuntime 0 1 []) (Some exampleDB) time.Second cancelledCtx
                  (call (PingContext (Some exampleDB) (workCtx 0 time.Second)))
                  (workCtx 0 time.Second)).
    assert (derivedFrom (workCtx 0 time.Second) cancelledCtx = true) as Hd.
    { apply H; [|reflexivity]. apply list_elem_of_lookup. by exists 1%nat. }
    vm_compute in Hd. discriminate Hd.
  - intros H.
    specialize (H (promptRuntime 0 1 []) "example.org"%string time.Second cancelledCtx
                  (call (LookupHost (workCtx 0 time.Second) "example.org"))
                  (workCtx 0 time.Second)).
    assert (derivedFrom (workCtx 0 time.Second) cancelledCtx = true) as Hd.
    { apply H; [|reflexivity]. apply list_elem_of_lookup. by exists 1%nat. }
    vm_compute in Hd. discriminate Hd.
Qed.

Lemma checkNames_snoc opts chk :
  checkNames (opts ++ [Some (health.WithCheck chk)])
  = checkNames opts ++ [health.Name chk].
Proof.
  unfold checkNames, checksOf. rewrite omap_app, fmap_app. reflexivity.
Qed.

Lemma not_NoDup_snoc (names : list string) (n : string) :
  n ∈ names -> ~ NoDup (names ++ [n]).
Proof.
  intros Hin Hnd. apply NoDup_app in Hnd as (_ & Hdisj & _).
  apply (Hdisj n Hin). apply list_elem_of_singleton. reflexivity.
Qed.

(** C4 (as amended). [AddCheck] and [AddDatabaseCheck] reject nothing: on a
    configuration that already has a check of the same name, each appends
    its option at the end of the option list and leaves the earlier options
    as they were, so the list then names that check twice. *)
Theorem AddCheck_appends_duplicate_names
    (chk : health.Check) (db : option DB) (c : AndictlCheckerConfig) (w : World) :
  valid (store w) (checkers c) ->
  (health.Name chk ∈ checkNames (configured w c) ->
   let r := AddCheck (health.WithCheck chk) c w in
   configured r.2 r.1 = configured w c ++ [Some (health.WithCheck chk)]
   /\ checkNames (configured r.2 r.1) = checkNames (configured w c) ++ [health.Name chk]
   /\ ~ NoDup (checkNames (configured r.2 r.1)))
  /\ ("database"%string ∈ checkNames (configured w c) ->
      let r := AddDatabaseCheck db c w in
      checkNames (configured r.2 r.1) = checkNames (configured w c) ++ ["database"%string]
      /\ ~ NoDup (checkNames (configured r.2 r.1))
      /\ stdout r.2 = stdout w ++ ["Check database health"%string]).
Proof.
  intros Hv. split.
  - intros Hin r. subst r.
    destruct (AddCheck_spec (health.WithCheck chk) c w Hv) as (Hr & _ & _).
    rewrite Hr, checkNames_snoc. split_and!; [done|done|].
    by apply not_NoDup_snoc.
  - intros Hin r. subst r. rewrite AddDatabaseCheck_unfold.
    match goal with
    | |- context [AddCheck ?o c ?w'] =>
        destruct (AddCheck_spec o c w' Hv) as (Hr & _ & Hout); rewrite Hr, Hout
    end.
    unfold configured at 1 3. cbn [store stdout].
    fold (configured w c). rewrite checkNames_snoc. split_and!; [done| |done].
    by apply not_NoDup_snoc.
Qed.

(** A second check named "goroutine-threshold" on the default configuration. *)
Lemma AddCheck_appends_duplicate_names_witness :
  valid (store defaultWorld) (checkers defaultConfig)
  /\ checkNames (configured
       (AddCheck (health.WithCheck (health.mkCheck "goroutine-threshold" time.Second
                                      (GoroutineCountCheck 5)))
                 defaultConfig defaultWorld).2
       (AddCheck (health.WithCheck (health.mkCheck "goroutine-threshold" time.Second
                                      (GoroutineCountCheck 5)))
                 defaultConfig defaultWorld).1)
     = checkNames (configured defaultWorld defaultConfig) ++ ["goroutine-threshold"%string].
Proof.
  assert (valid (store defaultWorld) (checkers defaultConfig)) as Hv.
  { eexists. split_and!; [vm_compute; reflexivity|reflexivity|vm_compute; lia]. }
  split; [exact Hv|].
  destruct (AddCheck_appends_duplicate_names
              (health.mkCheck "goroutine-threshold" time.Second (GoroutineCountCheck 5))
              None defaultConfig defaultWorld Hv) as [Hadd _].
  apply Hadd. vm_compute. apply list_elem_of_here.
Defined.

(** C4, as stated, fails: after [InitChecker], calling [AddDatabaseCheck]
    twice succeeds both times and leaves two checks named "database" in the
    configured options; a second registration of a name does not leave the
    configuration as it was. *)
Lemma duplicate_database_check_not_rejected :
  (let r := (c ← InitChecker;
             c ← AddDatabaseCheck (Some exampleDB) c;
             AddDatabaseCheck (Some exampleDB) c) emptyWorld in
   checkNames (configured r.2 r.1)
     = ["goroutine-threshold"; "database"; "database"]%string
   /\ stdout r.2 = ["Check database health"; "Check database health"]%string)
  /\ ~ (forall (db : option DB) (c : AndictlCheckerConfig) (w : World),
          valid (store w) (checkers c) ->
          "database"%string ∈ checkNames (configured w c) ->
          configured (AddDatabaseCheck db c w).2 (AddDatabaseCheck db c w).1
            = configured w c).
Proof.
  split; [split; vm_compute; reflexivity|].
  intros H.
  pose (r := AddDatabaseCheck (Some exampleDB) defaultConfig defaultWorld).
  specialize (H (Some exampleDB) r.1 r.2).
  assert (valid (store r.2) (checkers r.1)) as Hv.
  { eexists. split_and!; [vm_compute; reflexivity|reflexivity|vm_compute; lia]. }
  assert ("database"%string ∈ checkNames (configured r.2 r.1)) as Hin.
  { vm_compute. apply list_elem_of_further, list_elem_of_here. }
  specialize (H Hv Hin). apply (f_equal length) in H.
  vm_compute in H. discriminate H.
Qed.

(** C5. Once [GetCheckerHandler] has returned a handler for a configuration,
    any later sequence of [AddCheck] and [AddDatabaseCheck] calls on that
    configuration leaves the options the handler reads through its slice
    unchanged: they remain the options configured when it was built. *)
Theorem handler_options_frozen
    (c : AndictlCheckerConfig) (w : World) (rs : list Registration) :
  valid (store w) (checkers c) ->
  let h := GetCheckerHandler c in
  handlerOptions (registerAll rs c w).2 h = handlerOptions w h
  /\ handlerOptions w h = configured w c.
Proof.
  intros Hv h. split; [|reflexivity].
  unfold handlerOptions, h, GetCheckerHandler. cbn [health.checker health.options].
  apply registerAll_covers. repeat split; auto.
Qed.

(** A handler of the default configuration, then two registrations. *)
Lemma handler_options_frozen_witness :
  valid (store defaultWorld) (checkers defaultConfig)
  /\ checkNames (handlerOptions
       (registerAll [RegDatabase (Some exampleDB);
                     RegCheck (health.WithTimeout (time.mul 5 time.Second))]
                    defaultConfig defaultWorld).2
       (GetCheckerHandler defaultConfig))
     = ["goroutine-threshold"%string].
Proof.
  assert (valid (store defaultWorld) (checkers defaultConfig)) as Hv.
  { eexists. split_and!; [vm_compute; reflexivity|reflexivity|vm_compute; lia]. }
  split; [exact Hv|].
  destruct (handler_options_frozen defaultConfig defaultWorld
              [RegDatabase (Some exampleDB);
               RegCheck (health.WithTimeout (time.mul 5 time.Second))] Hv)
    as [Hfrozen _].
  rewrite Hfrozen. vm_compute. reflexivity.
Defined.

(** C2. The configuration [InitChecker] returns holds exactly four options:
    a cache duration of 1 second, a global timeout of 10 seconds, the check
    "goroutine-threshold" with a timeout of 2 seconds running
    [GoroutineCountCheck 100], and a status listener, which logs the new
    status. *)
Theorem InitChecker_defaults (w0 : World) (rt : Runtime) (ctx : Context)
    (state : health.CheckerState) :
  let opts := configured (InitChecker w0).2 (InitChecker w0).1 in
  length opts = 4%nat
  /\ cacheDurations opts = [1000000000]
  /\ globalTimeouts opts = [10000000000]
  /\ checkTimeouts opts = [("goroutine-threshold"%string, 2000000000)]
  /\ health.check <$> checksOf opts = [GoroutineCountCheck 100]
  /\ listenersOf opts = [statusListener]
  /\ run rt (statusListener ctx state)
     = (Returned tt,
        [call (LogPrintln ("health status changed to " +:+ health.Status state))]).
Proof.
  cbn zeta. destruct (InitChecker_valid w0) as [_ ->].
  split_and!; reflexivity.
Qed.

(** * Further properties of the code *)

(** ** Registration in sequence *)

Lemma AddCheck_store check c w :
  store (AddCheck check c w).2 = (append (store w) (checkers c) (Some check)).1.
Proof. unfold AddCheck. by destruct (append _ _ _). Qed.

Lemma AddCheck_checkers check c w :
  checkers (AddCheck check c w).1 = (append (store w) (checkers c) (Some check)).2.
Proof. unfold AddCheck. by destruct (append _ _ _). Qed.

Lemma append_len {T : Type} (st : gmap nat (list (option T))) s x :
  len (append st s x).2 = S (len s).
Proof. unfold append. case_bool_decide; reflexivity. Qed.

Lemma AddDatabaseCheck_as_AddCheck db c w :
  AddDatabaseCheck db c w =
  AddCheck (databaseOption db) c
           {| store := store w; stdout := stdout w ++ ["Check database health"] |}.
Proof. reflexivity. Qed.

Lemma register_spec r c w :
  valid (store w) (checkers c) ->
  configured (register r c w).2 (register r c w).1
    = configured w c ++ [Some (optionOf r)]
  /\ valid (store (register r c w).2) (checkers (register r c w).1)
  /\ len (checkers (register r c w).1) = S (len (checkers c)).
Proof.
  intros Hv. destruct r as [check|db]; cbn [register optionOf].
  - destruct (AddCheck_spec check c w Hv) as (Hr & Hv' & _).
    split_and!; [done|done|]. by rewrite AddCheck_checkers, append_len.
  - rewrite AddDatabaseCheck_as_AddCheck.
    set (w' := {| store := store w; stdout := _ |}).
    destruct (AddCheck_spec (databaseOption db) c w' Hv) as (Hr & Hv' & _).
    split_and!; [done|done|]. by rewrite AddCheck_checkers, append_len.
Qed.

Lemma registerAll_cons r rs c w :
  registerAll (r :: rs) c w
  = registerAll rs (register r c w).1 (register r c w).2.
Proof.
  change (registerAll (r :: rs) c w)
    with (let '(c', w') := register r c w in registerAll rs c' w').
  by destruct (register r c w).
Qed.

Lemma registerAll_spec rs : forall c w,
  valid (store w) (checkers c) ->
  configured (registerAll rs c w).2 (registerAll rs c w).1
    = configured w c ++ ((fun r => Some (optionOf r)) <$> rs)
  /\ valid (store (registerAll rs c w).2) (checkers (registerAll rs c w).1)
  /\ len (checkers (registerAll rs c w).1) = (len (checkers c) + length rs)%nat.
Proof.
  induction rs as [|r rs IH]; intros c w Hv.
  - cbn. rewrite app_nil_r. split_and!; [done|done|lia].
  - rewrite registerAll_cons.
    destruct (register_spec r c w Hv) as (Hr & Hv' & Hl).
    destruct (IH _ _ Hv') as (Hr2 & Hv2 & Hl2).
    rewrite Hr2, Hr, Hl2, Hl. rewrite <- app_assoc. cbn.
    split_and!; [done|done|lia].
Qed.

(** X1. Registrations accumulate in call order: after any sequence of
    [AddCheck] and [AddDatabaseCheck] calls the configuration reads as the
    options it had followed by one option per call, in order, also when the
    slice outgrows its capacity and is moved, so the check names are the
    earlier names followed by the registered ones; its slice stays valid and
    its length grows by the number of calls. *)
Theorem registerAll_appends_in_order
    (rs : list Registration) (c : AndictlCheckerConfig) (w : World) :
  valid (store w) (checkers c) ->
  configured (registerAll rs c w).2 (registerAll rs c w).1
    = configured w c ++ ((fun r => Some (optionOf r)) <$> rs)
  /\ checkNames (configured (registerAll rs c w).2 (registerAll rs c w).1)
     = checkNames (configured w c) ++ checkNames ((fun r => Some (optionOf r)) <$> rs)
  /\ valid (store (registerAll rs c w).2) (checkers (registerAll rs c w).1)
  /\ len (checkers (registerAll rs c w).1) = (len (checkers c) + length rs)%nat.
Proof.
  intros Hv. destruct (registerAll_spec rs c w Hv) as (Hr & Hv' & Hl).
  split_and!; [exact Hr| |exact Hv'|exact Hl].
  rewrite Hr. unfold checkNames, checksOf.
  by rewrite omap_app, fmap_app.
Qed.

Lemma defaultConfig_valid : valid (store defaultWorld) (checkers defaultConfig).
Proof. eexists. split_and!; [vm_compute; reflexivity|reflexivity|vm_compute; lia]. Qed.

(** Eight registrations on the default configuration (length 4, capacity
    10): the slice is moved on the seventh. *)
Lemma registerAll_appends_in_order_witness :
  valid (store defaultWorld) (checkers defaultConfig)
  /\ checkNames (configured
       (registerAll (replicate 8 (RegDatabase None)) defaultConfig defaultWorld).2
       (registerAll (replicate 8 (RegDatabase None)) defaultConfig defaultWorld).1)
     = "goroutine-threshold"%string :: replicate 8 "database"%string.
Proof.
  pose proof defaultConfig_valid as Hv.
  split; [exact Hv|].
  destruct (registerAll_appends_in_order (replicate 8 (RegDatabase None))
              defaultConfig defaultWorld Hv) as (Hr & _ & _).
  rewrite Hr. vm_compute. reflexivity.
Defined.

(** X2. A handler obtained after registrations reads them: for every prior
    world, [InitChecker] followed by any sequence of [AddCheck] and
    [AddDatabaseCheck] calls and then [GetCheckerHandler] gives a handler
    whose options are the four defaults followed by the registered options
    in call order. *)
Theorem handler_reads_defaults_then_registrations
    (w0 : World) (rs : list Registration) :
  let r := registerAll rs (InitChecker w0).1 (InitChecker w0).2 in
  handlerOptions r.2 (GetCheckerHandler r.1)
  = [Some (health.WithCacheDuration 1000000000);
     Some (health.WithTimeout 10000000000);
     Some (health.WithCheck
             {| health.Name := "goroutine-threshold";
                health.Timeout := 2000000000;
                health.check := GoroutineCountCheck 100 |});
     Some (health.WithStatusListener statusListener)]
    ++ ((fun r => Some (optionOf r)) <$> rs).
Proof.
  cbn zeta. destruct (InitChecker_valid w0) as [Hv Hd].
  destruct (registerAll_spec rs _ _ Hv) as (Hr & _ & _).
  unfold handlerOptions, GetCheckerHandler. cbn [health.checker health.options].
  fold (configured (registerAll rs (InitChecker w0).1 (InitChecker w0).2).2
          (registerAll rs (InitChecker w0).1 (InitChecker w0).2).1).
  rewrite Hr, Hd. reflexivity.
Qed.

(** X3. Copies of a configuration share the backing array while it has
    room.  Registering [x] through a configuration and then [y] through the
    stale copy [c] taken before makes the second call's result read
    [... ; y]; the first call's result reads [... ; y] too when the slice had
    room (its option [x] is overwritten), and keeps [x] only when the slice
    was full and both calls moved it. *)
Theorem stale_copy_registration
    (x y : health.CheckerOption) (c : AndictlCheckerConfig) (w : World) :
  valid (store w) (checkers c) ->
  let r1 := AddCheck x c w in
  let r2 := AddCheck y c r1.2 in
  configured r2.2 r2.1 = configured w c ++ [Some y]
  /\ configured r2.2 r1.1
     = configured w c
       ++ [Some (if bool_decide (len (checkers c) < cap (checkers c))%nat
                 then y else x)].
Proof.
  intros Hv r1 r2.
  destruct (append_frame (store w) (checkers c) (Some x) (checkers c) Hv Hv
              (or_intror (le_n _))) as (Hsame & Hv1 & _).
  rewrite <- AddCheck_store in Hsame, Hv1. fold r1 in Hsame, Hv1.
  destruct (AddCheck_spec y c r1.2 Hv1) as (Hr2 & _ & _). fold r2 in Hr2.
  assert (configured r1.2 c = configured w c) as Hc1 by exact Hsame.
  split; [by rewrite Hr2, Hc1|].
  case_bool_decide as Hroom.
  - assert (checkers r1.1 = checkers r2.1) as Hhdr.
    { unfold r2, r1. rewrite !AddCheck_checkers. unfold append.
      rewrite !bool_decide_eq_true_2 by done. reflexivity. }
    unfold configured in *. rewrite Hhdr, Hr2, Hc1. reflexivity.
  - pose proof (append_valid (store w) (checkers c) (Some x) Hv) as Hvx.
    pose proof (append_read (store w) (checkers c) (Some x) Hv) as Hrx.
    rewrite <- AddCheck_store, <- AddCheck_checkers in Hvx, Hrx.
    fold r1 in Hvx, Hrx.
    assert (array (checkers r1.1) ≠ array (checkers c)) as Hne.
    { unfold r1. rewrite AddCheck_checkers. unfold append.
      rewrite bool_decide_eq_false_2 by done. cbn.
      destruct Hv as (a & Ha & _). by eapply fresh_not_allocated. }
    destruct (append_frame (store r1.2) (checkers c) (Some y) (checkers r1.1)
                Hv1 Hvx (or_introl Hne)) as (Hkeep & _ & _).
    rewrite <- AddCheck_store in Hkeep. fold r2 in Hkeep.
    unfold configured. rewrite Hkeep. exact Hrx.
Qed.

(** On the default configuration (length 4, capacity 10) the option added
    first is lost. *)
Lemma stale_copy_registration_witness :
  valid (store defaultWorld) (checkers defaultConfig)
  /\ globalTimeouts (configured
       (AddCheck (health.WithTimeout 7) defaultConfig
          (AddCheck (health.WithTimeout 5) defaultConfig defaultWorld).2).2
       (AddCheck (health.WithTimeout 5) defaultConfig defaultWorld).1)
     = [10000000000; 7].
Proof.
  pose proof defaultConfig_valid as Hv.
  split; [exact Hv|].
  destruct (stale_copy_registration (health.WithTimeout 5) (health.WithTimeout 7)
              defaultConfig defaultWorld Hv) as [_ Hstale].
  rewrite Hstale. vm_compute. reflexivity.
Defined.

(** X4. Setting up writes to standard output only in [AddDatabaseCheck]:
    [InitChecker] writes nothing, and a sequence of registrations adds one
    line "Check database health" per [AddDatabaseCheck] call and nothing
    else. *)
Theorem setup_output (w : World) (c : AndictlCheckerConfig)
    (rs : list Registration) :
  stdout (InitChecker w).2 = stdout w
  /\ stdout (registerAll rs c w).2
     = stdout w ++ replicate (databaseRegistrations rs) "Check database health"%string.
Proof.
  split.
  - unfold InitChecker, make, mbind, Setup_bind, mret, Setup_ret.
    repeat match goal with
    | |- context [AddCheck ?o ?c ?w] =>
        let H := fresh in
        assert (stdout (AddCheck o c w).2 = stdout w) as H
          by (unfold AddCheck; by destruct (append _ _ _));
        destruct (AddCheck o c w); cbn [fst snd] in H; cbn [snd]; rewrite H; clear H
    end.
    reflexivity.
  - revert c w. induction rs as [|r rs IH]; intros c w.
    + cbn. by rewrite app_nil_r.
    + rewrite registerAll_cons, IH. destruct r as [check|db]; cbn [register databaseRegistrations].
      * f_equal. unfold AddCheck. by destruct (append _ _ _).
      * rewrite AddDatabaseCheck_as_AddCheck.
        replace (stdout (AddCheck (databaseOption db) c
                   {| store := store w; stdout := stdout w ++ ["Check database health"] |}).2)
          with (stdout w ++ ["Check database health"%string])
          by (unfold AddCheck; by destruct (append _ _ _)).
        rewrite <- app_assoc. reflexivity.
Qed.

(** ** Configurations from separate [InitChecker] calls *)

Lemma make_frame {T : Type} (st : gmap nat (list (option T))) n c s0 :
  valid st s0 ->
  readSlice (make st n c).1 s0 = readSlice st s0
  /\ valid (make st n c).1 s0
  /\ array s0 ≠ array (make st n c).2.
Proof.
  intros (a0 & Ha0 & Hlen0 & Hle0).
  assert (fresh (dom st) ≠ array s0) as Hne by (by eapply fresh_not_allocated).
  unfold make, readSlice, valid. cbn.
  rewrite lookup_insert_ne by done. split_and!; [done| |done].
  exists a0. auto.
Qed.

Lemma InitChecker_covers w0 s0 :
  valid (store w0) s0 ->
  readSlice (store (InitChecker w0).2) s0 = readSlice (store w0) s0
  /\ covers (InitChecker w0).2 (InitChecker w0).1 s0.
Proof.
  intros Hs0. unfold InitChecker.
  pose proof (make_valid (store w0) 0 10 ltac:(lia)) as Hv0.
  destruct (make_frame (store w0) 0 10 s0 Hs0) as (Hr0 & Hs0' & Hne0).
  destruct (make (store w0) 0 10) as [st s]. cbn [fst snd] in Hv0, Hr0, Hs0', Hne0.
  set (w1 := {| store := st; stdout := stdout w0 |}).
  set (c0 := {| checkers := s |}).
  assert (covers w1 c0 s0) as Hc by (repeat split; auto).
  assert (readSlice (store w1) s0 = readSlice (store w0) s0) as Hr by exact Hr0.
  clearbody w1 c0. clear Hv0 Hr0 Hs0' Hne0.
  unfold mbind, Setup_bind, mret, Setup_ret.
  repeat match goal with
  | |- context [AddCheck ?o ?c ?w] =>
      let H1 := fresh in let H2 := fresh in
      destruct (AddCheck_covers o c w s0) as (H1 & H2); [assumption|];
      destruct (AddCheck o c w); cbn [fst snd] in H1, H2;
      rewrite Hr in H1; clear Hr Hc; rename H1 into Hr; rename H2 into Hc
  end.
  cbn [fst snd]. auto.
Qed.

(** X5. [InitChecker] allocates a backing array of its own: a configuration
    that already exists reads the same options after another [InitChecker]
    call and after any registrations on the new configuration, and the new
    configuration starts at length 4 with capacity 10. *)
Theorem InitChecker_configurations_independent
    (c1 : AndictlCheckerConfig) (w : World) (rs : list Registration) :
  valid (store w) (checkers c1) ->
  let r0 := InitChecker w in
  let r := registerAll rs r0.1 r0.2 in
  configured r0.2 c1 = configured w c1
  /\ configured r.2 c1 = configured w c1
  /\ array (checkers r0.1) ≠ array (checkers c1)
  /\ len (checkers r0.1) = 4%nat /\ cap (checkers r0.1) = 10%nat.
Proof.
  intros Hv r0 r.
  destruct (InitChecker_covers w (checkers c1) Hv) as (Hr0 & Hc0).
  fold r0 in Hr0, Hc0.
  assert (checkers r0.1
          = {| array := fresh (dom (store w)); len := 4; cap := 10 |}) as Hhdr
    by reflexivity.
  split_and!.
  - exact Hr0.
  - unfold configured, r. rewrite (registerAll_covers rs _ _ _ Hc0). exact Hr0.
  - rewrite Hhdr. cbn. destruct Hv as (a & Ha & _).
    by eapply fresh_not_allocated.
  - by rewrite Hhdr.
  - by rewrite Hhdr.
Qed.

(** A second [InitChecker] after the first, then two registrations on the
    second configuration. *)
Lemma InitChecker_configurations_independent_witness :
  valid (store defaultWorld) (checkers defaultConfig)
  /\ configured
       (registerAll [RegDatabase None; RegCheck (health.WithCacheDuration 0)]
          (InitChecker defaultWorld).1 (InitChecker defaultWorld).2).2
       defaultConfig
     = configured defaultWorld defaultConfig.
Proof.
  pose proof defaultConfig_valid as Hv.
  split; [exact Hv|].
  apply (InitChecker_configurations_independent defaultConfig defaultWorld
           [RegDatabase None; RegCheck (health.WithCacheDuration 0)] Hv).
Defined.

(** X6. The probe [AddDatabaseCheck] registers for a non-nil handle is named
    "database" and carries a probe timeout of 2 seconds, but its ping runs
    under a deadline 1 second after the check starts: the check makes one
    [PingContext] call, under the timer context on the background context
    with deadline [now + 1s], and returns what the ping returns. *)
Theorem AddDatabaseCheck_probe_deadline
    (d : DB) (c : AndictlCheckerConfig) (w : World) (rt : Runtime) (ctx : Context) :
  valid (store w) (checkers c) ->
  exists chk : health.Check,
    last (configured (AddDatabaseCheck (Some d) c w).2 (AddDatabaseCheck (Some d) c w).1)
      = Some (Some (health.WithCheck chk))
    /\ health.Name chk = "database"%string
    /\ health.Timeout chk = 2000000000
    /\ calls rt (health.check chk ctx)
       = [call TimeNow;
          call (PingContext (Some d) (timerCtx Background (now rt + 1000000000)));
          call (Cancel (timerCtx Background (now rt + 1000000000)))]
    /\ outcome rt (health.check chk ctx)
       = Returned (ping rt d (timerCtx Background (now rt + 1000000000))).
Proof.
  intros Hv. rewrite AddDatabaseCheck_as_AddCheck.
  match goal with
  | |- context [AddCheck ?o c ?w'] =>
      destruct (AddCheck_spec o c w' Hv) as (Hr & _ & _); rewrite Hr
  end.
  eexists. rewrite last_snoc. split_and!; reflexivity.
Qed.

Lemma AddDatabaseCheck_probe_deadline_witness :
  valid (store defaultWorld) (checkers defaultConfig)
  /\ exists chk : health.Check,
       last (configured (AddDatabaseCheck (Some exampleDB) defaultConfig defaultWorld).2
                        (AddDatabaseCheck (Some exampleDB) defaultConfig defaultWorld).1)
         = Some (Some (health.WithCheck chk))
       /\ health.Timeout chk = 2000000000.
Proof.
  pose proof defaultConfig_valid as Hv.
  split; [exact Hv|].
  destruct (AddDatabaseCheck_probe_deadline exampleDB defaultConfig defaultWorld
              (promptRuntime 0 1 []) Background Hv) as (chk & Hl & _ & Ht & _).
  exists chk. split; [exact Hl|exact Ht].
Defined.

(** ** The network checks *)

(** X7. [TCPDialCheck] dials "tcp" with the given address and timeout.  It
    returns nil exactly when the dial succeeds and closing the connection
    returns nil; a dial error is returned as it is, and then nothing is
    closed; after a successful dial the connection is closed and the result
    of the close is the result of the check. *)
Theorem TCPDialCheck_behaviour
    (rt : Runtime) (addr : string) (timeout : time.Duration) (ctx : Context) :
  let d := dial rt "tcp" addr timeout in
  (outcome rt (TCPDialCheck addr timeout ctx) = Returned nil
   <-> d.2 = nil /\ closeConn rt d.1 = nil)
  /\ (forall e, d.2 = Some e ->
        run rt (TCPDialCheck addr timeout ctx)
        = (Returned (Some e), [call (DialTimeout "tcp" addr timeout)]))
  /\ (d.2 = nil ->
        run rt (TCPDialCheck addr timeout ctx)
        = (Returned (closeConn rt d.1),
           [call (DialTimeout "tcp" addr timeout); call (ConnClose d.1)])).
Proof.
  cbn zeta. unfold outcome. cbn.
  destruct (dial rt "tcp" addr timeout) as [conn [e|]]; cbn.
  - split_and!.
    + split; [discriminate|]. intros [? _]. discriminate.
    + intros e' [= ->]. reflexivity.
    + discriminate.
  - split_and!.
    + split; [intros [= ->]; auto|]. intros [_ ->]. reflexivity.
    + discriminate.
    + reflexivity.
Qed.

(** X8. [HTTPGetCheck] sends one GET with a client that has the given
    timeout and never follows redirects.  It returns nil exactly when the
    request succeeds with status 200; a request error is returned as it is
    and no body is closed; any other status, a redirect included, gives the
    error "returned status <code>" after the body has been closed. *)
Theorem HTTPGetCheck_behaviour
    (rt : Runtime) (url : string) (timeout : time.Duration) (ctx : Context) :
  let client := {| clientTimeout := timeout; neverFollowRedirects := true |} in
  let g := httpGet rt client url in
  (outcome rt (HTTPGetCheck url timeout ctx) = Returned nil
   <-> g.2 = nil /\ StatusCode g.1 = 200)
  /\ (forall e, g.2 = Some e ->
        run rt (HTTPGetCheck url timeout ctx)
        = (Returned (Some e), [call (ClientGet client url)]))
  /\ (g.2 = nil -> StatusCode g.1 ≠ 200 ->
        run rt (HTTPGetCheck url timeout ctx)
        = (Returned (Some (Errorf "returned status %d" [AInt (StatusCode g.1)])),
           [call (ClientGet client url); call (BodyClose g.1)]))
  /\ (g.2 = nil -> StatusCode g.1 = 200 ->
        calls rt (HTTPGetCheck url timeout ctx)
        = [call (ClientGet client url); call (BodyClose g.1)]).
Proof.
  cbn zeta. unfold outcome, calls. cbn.
  destruct (httpGet rt _ url) as [resp [e|]]; cbn.
  - split_and!.
    + split; [discriminate|]. intros [? _]. discriminate.
    + intros e' [= ->]. reflexivity.
    + discriminate.
    + discriminate.
  - case_bool_decide as Hs; cbn.
    + split_and!.
      * split; [discriminate|]. intros [_ ?]. done.
      * discriminate.
      * reflexivity.
      * done.
    + split_and!.
      * split; auto.
      * discriminate.
      * done.
      * reflexivity.
Qed.

(** X9. [DNSResolveCheck] returns nil exactly when the lookup, made under
    the timer context on the background context with deadline
    [now + timeout], gives no error and at least one address; a lookup error
    is returned as it is, and an empty answer without error gives
    "could not resolve host". *)
Theorem DNSResolveCheck_behaviour
    (rt : Runtime) (host : string) (timeout : time.Duration) (ctx : Context) :
  let l := lookup rt (timerCtx Background (now rt + timeout)) host in
  (outcome rt (DNSResolveCheck host timeout ctx) = Returned nil
   <-> l.2 = nil /\ l.1 ≠ [])
  /\ (forall e, l.2 = Some e ->
        outcome rt (DNSResolveCheck host timeout ctx) = Returned (Some e))
  /\ (l.2 = nil -> l.1 = [] ->
        outcome rt (DNSResolveCheck host timeout ctx)
        = Returned (Some (Errorf "could not resolve host" []))).
Proof.
  cbn zeta. unfold outcome. cbn.
  destruct (lookup rt (timerCtx Background (now rt + timeout)) host)
    as [addrs [e|]]; cbn.
  - split_and!.
    + split; [discriminate|]. intros [? _]. discriminate.
    + intros e' [= ->]. reflexivity.
    + discriminate.
  - case_bool_decide as Hl; cbn.
    + assert (addrs = []) as -> by (destruct addrs; [done|cbn in Hl; lia]).
      split_and!; [|discriminate|done].
      split; [discriminate|]. intros [_ ?]. done.
    + split_and!; [|discriminate|].
      * split; [|done]. intros _. split; [done|]. intros ->. cbn in Hl. lia.
      * intros _ ->. cbn in Hl. lia.
Qed.

(** X10. The context that [DatabasePingCheck] and [DNSResolveCheck] create
    is always released: whatever the handle (nil or not), the answers of the
    driver and of the resolver, and the passed context, the last call of the
    check is the cancel of the context it created, and it is the only
    cancel. *)
Theorem created_context_always_cancelled
    (rt : Runtime) (database : option DB) (host : string)
    (timeout : time.Duration) (ctx : Context) :
  let wctx := timerCtx Background (now rt + timeout) in
  last (calls rt (DatabasePingCheck database timeout ctx)) = Some (call (Cancel wctx))
  /\ length (List.filter isCancel (calls rt (DatabasePingCheck database timeout ctx))) = 1%nat
  /\ last (calls rt (DNSResolveCheck host timeout ctx)) = Some (call (Cancel wctx))
  /\ length (List.filter isCancel (calls rt (DNSResolveCheck host timeout ctx))) = 1%nat.
Proof.
  cbn zeta. unfold calls. split_and!.
  - destruct database; reflexivity.
  - destruct database; reflexivity.
  - cbn. destruct (lookup rt _ host) as [addrs [e|]]; cbn; [reflexivity|].
    case_bool_decide; reflexivity.
  - cbn. destruct (lookup rt _ host) as [addrs [e|]]; cbn; [reflexivity|].
    case_bool_decide; reflexivity.
Qed.

(** X11. A timeout that is zero or negative makes [DatabasePingCheck] and
    [DNSResolveCheck] hand an already expired context to the driver and to
    the resolver: the context of every such call is done, with the error
    "context deadline exceeded", at the instant it was created and at every
    later instant. *)
Theorem nonpositive_timeout_context_expired
    (rt : Runtime) (database : option DB) (host : string)
    (timeout : time.Duration) (ctx : Context) (k : Call) (wctx : Context)
    (t : Z) :
  k ∈ calls rt (DatabasePingCheck database timeout ctx)
  \/ k ∈ calls rt (DNSResolveCheck host timeout ctx) ->
  callCtx k = Some wctx ->
  timeout <= 0 ->
  now rt <= t ->
  Done wctx t = true /\ Err wctx t = Some DeadlineExceeded.
Proof.
  intros Hin Hctx Htimeout Hlater.
  assert (wctx = timerCtx Background (now rt + timeout)) as ->.
  { destruct Hin as [Hin|Hin]; unfold calls in Hin.
    - destruct database; cbn in Hin;
        repeat (apply elem_of_cons in Hin as [->|Hin]; [cbn in Hctx; congruence|]);
        by apply elem_of_nil in Hin.
    - cbn in Hin. destruct (lookup rt _ host) as [addrs [e|]]; cbn in Hin.
      + repeat (apply elem_of_cons in Hin as [->|Hin]; [cbn in Hctx; congruence|]).
        by apply elem_of_nil in Hin.
      + case_bool_decide; cbn in Hin;
          repeat (apply elem_of_cons in Hin as [->|Hin]; [cbn in Hctx; congruence|]);
          by apply elem_of_nil in Hin. }
  cbn. rewrite orb_false_r.
  destruct (Z.leb_spec (now rt + timeout) t); [done|lia].
Qed.

(** A zero timeout, the context created at instant 5 and looked at by the
    driver at instant 9. *)
Lemma nonpositive_timeout_context_expired_witness :
  call (PingContext (Some exampleDB) (timerCtx Background 5))
    ∈ calls (promptRuntime 5 1 []) (DatabasePingCheck (Some exampleDB) 0 Background)
  /\ Done (timerCtx Background 5) 9 = true
  /\ Err (timerCtx Background 5) 9 = Some DeadlineExceeded.
Proof.
  assert (call (PingContext (Some exampleDB) (timerCtx Background 5))
            ∈ calls (promptRuntime 5 1 [])
                (DatabasePingCheck (Some exampleDB) 0 Background)) as Hin.
  { apply list_elem_of_lookup. exists 1%nat. reflexivity. }
  split; [exact Hin|].
  apply (nonpositive_timeout_context_expired (promptRuntime 5 1 [])
           (Some exampleDB) "example.org" 0 Background _ (timerCtx Background 5) 9
           (or_introl Hin) eq_refl); cbn; lia.
Defined.

(** ** The garbage collection pause check *)

Lemma uint64_of_nonnegative (x : Z) :
  time.is_int64 x -> 0 <= x -> time.uint64 x = x.
Proof.
  unfold time.is_int64, time.uint64. intros Hr Hpos.
  apply Z.mod_small. lia.
Qed.

Lemma pauseLoop_first_excess thr threshold before p after :
  Forall (fun q => q <= thr) before -> thr < p ->
  pauseLoop thr threshold (before ++ p :: after)
  = Some (Errorf "recent GC cycle took %s > %s"
                 [ADuration (time.int64 p); ADuration threshold]).
Proof.
  intros Hb Hp. induction Hb as [|q before Hq Hb IH]; cbn.
  - destruct (Z.gtb_spec p thr); [reflexivity|lia].
  - destruct (Z.gtb_spec q thr); [lia|exact IH].
Qed.

(** X12. For a threshold that is not negative, [GCMaxPauseCheck] returns nil
    exactly when no entry of [PauseNs] is above the threshold; an entry equal
    to the threshold passes, and an empty buffer passes. *)
Theorem GCMaxPauseCheck_succeeds_iff
    (rt : Runtime) (threshold : time.Duration) (ctx : Context) :
  time.is_int64 threshold -> 0 <= threshold ->
  (outcome rt (GCMaxPauseCheck threshold ctx) = Returned nil
   <-> Forall (fun p => p <= threshold) (PauseNs (memStats rt)))
  /\ (PauseNs (memStats rt) = [] ->
      outcome rt (GCMaxPauseCheck threshold ctx) = Returned nil).
Proof.
  intros Hr Hpos.
  rewrite GCMaxPauseCheck_outcome, (uint64_of_nonnegative threshold Hr Hpos).
  split.
  - rewrite <- pauseLoop_nil_iff. split; [by intros [= ->]|by intros ->].
  - by intros ->.
Qed.

Lemma GCMaxPauseCheck_succeeds_iff_witness :
  time.is_int64 50 /\ 0 <= 50 /\
  outcome (promptRuntime 0 1 [50; 0; 49]) (GCMaxPauseCheck 50 Background)
  = Returned nil.
Proof.
  assert (time.is_int64 50) as Hr by (unfold time.is_int64; lia).
  assert (0 <= 50) as Hpos by lia.
  split_and!; [exact Hr|exact Hpos|].
  destruct (GCMaxPauseCheck_succeeds_iff (promptRuntime 0 1 [50; 0; 49]) 50
              Background Hr Hpos) as [Hiff _].
  apply Hiff. cbn [memStats PauseNs promptRuntime].
  repeat constructor; lia.
Defined.

(** X13. When [GCMaxPauseCheck] fails, its error reports the first entry of
    [PauseNs], in buffer order, that is above the converted threshold: the
    format "recent GC cycle took %s > %s" with that pause converted to a
    [time.Duration] (so a pause of 2^63 ns or more is reported as the
    negative duration [pause - 2^64]) and the threshold as given. *)
Theorem GCMaxPauseCheck_reports_first_excess
    (rt : Runtime) (threshold : time.Duration) (ctx : Context)
    (before after : list Z) (p : Z) :
  PauseNs (memStats rt) = before ++ p :: after ->
  Forall (fun q => q <= time.uint64 threshold) before ->
  time.uint64 threshold < p ->
  outcome rt (GCMaxPauseCheck threshold ctx)
  = Returned (Some (Errorf "recent GC cycle took %s > %s"
                           [ADuration (time.int64 p); ADuration threshold]))
  /\ (0 <= p < 2 ^ 63 -> time.int64 p = p)
  /\ (2 ^ 63 <= p < 2 ^ 64 -> time.int64 p = p - 2 ^ 64).
Proof.
  intros Hp Hb Hgt. rewrite GCMaxPauseCheck_outcome, Hp.
  rewrite (pauseLoop_first_excess _ threshold before p after Hb Hgt).
  split_and!; [reflexivity| |]; intros Hrange; unfold time.int64.
  - rewrite Z.mod_small; lia.
  - assert ((p + 2 ^ 63) mod 2 ^ 64 = p - 2 ^ 63) as ->; [|lia].
    symmetry. apply Z.mod_unique with (q := 1); lia.
Qed.

Lemma GCMaxPauseCheck_reports_first_excess_witness :
  outcome (promptRuntime 0 1 [3; 10; 700; 900]) (GCMaxPauseCheck 10 Background)
  = Returned (Some (Errorf "recent GC cycle took %s > %s"
                           [ADuration 700; ADuration 10])).
Proof.
  destruct (GCMaxPauseCheck_reports_first_excess
              (promptRuntime 0 1 [3; 10; 700; 900]) 10 Background
              [3; 10] [900] 700 eq_refl) as (Hout & _ & _).
  - repeat constructor; vm_compute; discriminate.
  - vm_compute. reflexivity.
  - exact Hout.
Defined.

(** X14. Among thresholds of one sign, a larger threshold never fails where
    a smaller one passes: if [t1 <= t2] are both non-negative or both
    negative and the check built with [t1] returns nil, so does the check
    built with [t2]. *)
Theorem GCMaxPauseCheck_monotone
    (rt : Runtime) (t1 t2 : time.Duration) (ctx : Context) :
  time.is_int64 t1 -> time.is_int64 t2 -> t1 <= t2 ->
  0 <= t1 \/ t2 < 0 ->
  outcome rt (GCMaxPauseCheck t1 ctx) = Returned nil ->
  outcome rt (GCMaxPauseCheck t2 ctx) = Returned nil.
Proof.
  intros H1 H2 Hle Hsign. rewrite !GCMaxPauseCheck_outcome.
  intros [= Hnil]. f_equal.
  apply pauseLoop_nil_iff. apply pauseLoop_nil_iff in Hnil.
  eapply Forall_impl; [exact Hnil|]. intros p Hp. cbn beta in *.
  destruct Hsign as [Hpos|Hneg].
  - rewrite uint64_of_nonnegative in * by (auto; lia). lia.
  - rewrite uint64_of_negative in * by (auto; lia). lia.
Qed.

Lemma GCMaxPauseCheck_monotone_witness :
  outcome (promptRuntime 0 1 [50; 0; 49]) (GCMaxPauseCheck 60 Background)
  = Returned nil.
Proof.
  apply (GCMaxPauseCheck_monotone (promptRuntime 0 1 [50; 0; 49]) 50 60 Background).
  - unfold time.is_int64. lia.
  - unfold time.is_int64. lia.
  - lia.
  - left. lia.
  - reflexivity.
Defined.

(** ** The default probe, and a configuration that was never initialised *)

(** X15. The default configuration has exactly one probe, named
    "goroutine-threshold"; run under any runtime and with any passed context
    it asks only for the goroutine count, and it returns nil exactly when at
    most 100 goroutines are running. *)
Theorem default_probe_behaviour (w0 : World) (rt : Runtime) (ctx : Context) :
  let opts := configured (InitChecker w0).2 (InitChecker w0).1 in
  length (checksOf opts) = 1%nat
  /\ Forall (fun chk =>
       health.Name chk = "goroutine-threshold"%string
       /\ calls rt (health.check chk ctx) = [call NumGoroutine]
       /\ (outcome rt (health.check chk ctx) = Returned nil <-> goroutines rt <= 100))
     (checksOf opts).
Proof.
  cbn zeta. destruct (InitChecker_valid w0) as [_ ->].
  split; [reflexivity|]. cbn. constructor; [|constructor].
  split_and!; [reflexivity| |].
  - unfold calls. cbn. destruct (goroutines rt >? 100); reflexivity.
  - unfold outcome. cbn.
    destruct (Z.gtb_spec (goroutines rt) 100); cbn; split;
      (lia || discriminate || auto).
Qed.

Lemma append_nilSlice {T : Type} (st : gmap nat (list (option T))) x :
  append st nilSlice x
  = (<[fresh (dom st) := [x]]> st,
     {| array := fresh (dom st); len := 1; cap := 1 |}).
Proof.
  unfold append, nilSlice, growcap. cbn.
  rewrite bool_decide_eq_false_2 by lia.
  rewrite bool_decide_eq_true_2 by done. reflexivity.
Qed.

(** X16. Registrations work on a configuration that was never initialised:
    starting from the zero value (a nil option slice), any sequence of
    [AddCheck] and [AddDatabaseCheck] calls yields exactly the registered
    options in call order, with none of the defaults of [InitChecker]. *)
Theorem registerAll_on_zero_value (w : World) (rs : list Registration) :
  configured (registerAll rs zeroConfig w).2 (registerAll rs zeroConfig w).1
    = (fun r => Some (optionOf r)) <$> rs.
Proof.
  destruct rs as [|r rs]; [reflexivity|].
  rewrite registerAll_cons.
  assert (valid (store (register r zeroConfig w).2)
                (checkers (register r zeroConfig w).1)
          /\ configured (register r zeroConfig w).2 (register r zeroConfig w).1
             = [Some (optionOf r)]) as [Hv Hone].
  { destruct r as [check|db]; cbn [register optionOf];
      [|rewrite AddDatabaseCheck_as_AddCheck];
      unfold AddCheck, zeroConfig, configured, readSlice, valid;
      cbn [checkers store]; rewrite append_nilSlice; cbn;
      rewrite lookup_insert_eq;
      (split; [eexists; split_and!; [reflexivity|reflexivity|lia]|reflexivity]). }
  destruct (registerAll_spec rs _ _ Hv) as (Hall & _ & _).
  rewrite Hall, Hone. reflexivity.
Qed.
